(** * core/jni/android_view_ThreadedRenderer.cpp

    The render-thread / owner-thread bridge of [ThreadedRenderer]: the
    classes [OnFinishedEvent], [InvokeAnimationListeners],
    [RenderingException], [RootRenderNode] and [AnimationContextBridge].

    Objects are records, a method is a computation over the object graph
    it can reach ([World]), and whatever the file calls but does not
    define (the [AnimationContext] base class, the animation listeners,
    JNI) is either an interface the development is generic in or a call
    recorded in the world's call log. *)

From Stdlib Require Import List String Ascii ZArith NArith Lia Bool Arith.
Import ListNotations.

Set Implicit Arguments.

(** ** Identities of the objects the file only holds pointers to *)

Definition address := N.

Definition RenderNode := address.              (* RenderNode*                *)
Definition BaseRenderNodeAnimator := address.  (* BaseRenderNodeAnimator*    *)
Definition AnimationListener := address.       (* AnimationListener*         *)
Definition Looper := address.                  (* Looper*                    *)
Definition JavaVM := address.                  (* JavaVM*                    *)
Definition JNIEnv := address.                  (* JNIEnv*                    *)
Definition TreeInfo := address.                (* TreeInfo&                  *)

(** ** std::string and C strings

    A [std::string] is any sequence of chars, NUL included.  A
    [const char*] argument denotes the chars before the first NUL, so
    [c_str] is where an embedded NUL cuts the text. *)

Definition NUL : ascii := Ascii.zero.

Fixpoint c_str (s : string) : string :=
  match s with
  | EmptyString => EmptyString
  | String c rest => if Ascii.eqb c NUL then EmptyString else String c (c_str rest)
  end.

Fixpoint has_NUL (s : string) : bool :=
  match s with
  | EmptyString => false
  | String c rest => Ascii.eqb c NUL || has_NUL rest
  end.

(** ** std::vector operations used by the file *)

Module vector.
Definition size {A} (v : list A) : nat := List.length v.
Definition push_back {A} (v : list A) (x : A) : list A := v ++ [x].
Definition clear {A} (_ : list A) : list A := [].
(** [a.swap(b)]: the new contents of [a] and of [b]. *)
Definition swap {A} (a b : list A) : list A * list A := (b, a).
(** [v[i]]; out of range is undefined behaviour in C++, [None] here. *)
Definition at_ {A} (v : list A) (i : nat) : option A := nth_error v i.
End vector.

(** ** class OnFinishedEvent *)

Record OnFinishedEvent := {
  animator : BaseRenderNodeAnimator;
  listener : AnimationListener
}.

(** ** Message handlers

    [MessageHandler] has two subclasses in this file; a handler object is
    one of them with its member variables. *)

Record Message := { what : Z }.

Inductive MessageHandler :=
| InvokeAnimationListeners (mOnFinishedEvents : list OnFinishedEvent)
| RenderingException (mVm : JavaVM) (mMessage : string).

(** ** Calls that leave the file

    The calls the code makes into objects it does not define, in the
    order they are made. *)

Inductive Call :=
| call_addAnimatingRenderNode (node : RenderNode)
| call_AnimationContext_startFrame
| call_AnimationContext_runRemainingAnimations (info : TreeInfo)
| call_onAnimationFinished (l : AnimationListener) (a : BaseRenderNodeAnimator)
| call_jniThrowException (env : JNIEnv) (className : string) (msg : string).

(** ** The thread a piece of code runs on

    What [Looper::getForThread()], [JavaVM::GetEnv] and
    [JNIEnv::GetJavaVM] answer on that thread. *)

Definition JNI_OK : Z := 0.
Definition JNI_EDETACHED : Z := -2.

Record Thread := {
  Looper_getForThread : option Looper;
  JavaVM_GetEnv : JavaVM -> Z * JNIEnv;
  JNIEnv_GetJavaVM : JNIEnv -> JavaVM
}.

(** ** Computations: state passing, with the fatal log macros

    [LOG_ALWAYS_FATAL] aborts the process: nothing after it runs and no
    state is handed on. *)

Inductive outcome (A : Type) : Type :=
| Ret (a : A)
| Fatal (msg : string).

Arguments Ret {A} a.
Arguments Fatal {A} msg.

Definition M (S A : Type) : Type := S -> outcome (A * S).

Section Monad.
Context {S : Type}.

Definition ret {A} (a : A) : M S A := fun s => Ret (a, s).

Definition bind {A B} (c : M S A) (k : A -> M S B) : M S B :=
  fun s => match c s with
           | Ret (a, s') => k a s'
           | Fatal msg => Fatal msg
           end.

Definition gets {A} (f : S -> A) : M S A := fun s => Ret (f s, s).

Definition modify (f : S -> S) : M S unit := fun s => Ret (tt, f s).

Definition LOG_ALWAYS_FATAL {A} (msg : string) : M S A := fun _ => Fatal msg.

Definition LOG_ALWAYS_FATAL_IF (cond : bool) (msg : string) : M S unit :=
  if cond then LOG_ALWAYS_FATAL msg else ret tt.

(** [std::for_each(first, last, f)] *)
Fixpoint for_each {A} (range : list A) (f : A -> M S unit) : M S unit :=
  match range with
  | [] => ret tt
  | x :: rest => bind (f x) (fun _ => for_each rest f)
  end.

(** [for (size_t i = from; i < from + rounds; i++) body(i)] *)
Fixpoint for_index (rounds from : nat) (body : nat -> M S unit) : M S unit :=
  match rounds with
  | O => ret tt
  | Datatypes.S rounds' => bind (body from) (fun _ => for_index rounds' (Datatypes.S from) body)
  end.
End Monad.

Declare Scope monad_scope.
Delimit Scope monad_scope with monad.
Notation "x <- c ;; k" := (bind c (fun x => k))
  (at level 61, c at next level, right associativity) : monad_scope.
Notation "c ;; k" := (bind c (fun _ => k))
  (at level 61, right associativity) : monad_scope.
Open Scope monad_scope.

(** ** class AnimationContext (the base class of the bridge)

    Its code is in libs/hwui, not in this file.  The development is
    generic in it: [context] is the state of the base subobject, and the
    three operations are what the base class does to that state.
    [base_animate] also yields, in the order they are signalled, the
    (animator, listener) pairs for which the advancement calls the
    virtual [callOnFinished]. *)

Class AnimationContextBase := {
  context : Type;
  base_addAnimatingRenderNode : RenderNode -> context -> context;
  base_startFrame : context -> context;
  base_animate : TreeInfo -> context ->
                 context * list (BaseRenderNodeAnimator * AnimationListener)
}.

(** ** class RootRenderNode, class AnimationContextBridge: member variables *)

Record RootRenderNode := {
  mLooper : Looper;
  mVm : JavaVM;
  mPendingAnimatingRenderNodes : list RenderNode
}.

Record AnimationContextBridge `{AnimationContextBase} := {
  super : context;                              (* the AnimationContext subobject *)
  mOnFinishedEvents : list OnFinishedEvent
}.

(** ** The object graph

    One root node, the bridge whose [mRootNode] points to it, the message
    queue of the looper the root's [mLooper] points to, and the calls made
    so far. *)

Record World `{AnimationContextBase} := {
  mRootNode : RootRenderNode;
  bridge : AnimationContextBridge;
  queue : list (MessageHandler * Message);
  calls : list Call
}.

Section Access.
Context `{AnimationContextBase}.

Definition with_root (f : RootRenderNode -> RootRenderNode) (w : World) : World :=
  {| mRootNode := f (mRootNode w); bridge := bridge w;
     queue := queue w; calls := calls w |}.

Definition with_bridge (f : AnimationContextBridge -> AnimationContextBridge)
           (w : World) : World :=
  {| mRootNode := mRootNode w; bridge := f (bridge w);
     queue := queue w; calls := calls w |}.

Definition with_queue (f : list (MessageHandler * Message) ->
                           list (MessageHandler * Message)) (w : World) : World :=
  {| mRootNode := mRootNode w; bridge := bridge w;
     queue := f (queue w); calls := calls w |}.

Definition call (c : Call) : M World unit :=
  modify (fun w => {| mRootNode := mRootNode w; bridge := bridge w;
                      queue := queue w; calls := calls w ++ [c] |}).

Definition set_pending (v : list RenderNode) (r : RootRenderNode) : RootRenderNode :=
  {| mLooper := mLooper r; mVm := mVm r; mPendingAnimatingRenderNodes := v |}.

Definition set_super (c : context) (b : AnimationContextBridge) : AnimationContextBridge :=
  {| super := c; mOnFinishedEvents := mOnFinishedEvents b |}.

Definition set_events (v : list OnFinishedEvent) (b : AnimationContextBridge)
  : AnimationContextBridge :=
  {| super := super b; mOnFinishedEvents := v |}.
End Access.

(** ** static JNIEnv* getenv(JavaVM* vm) *)

Definition getenv {S} (th : Thread) (vm : JavaVM) : M S JNIEnv :=
  let (status, env) := JavaVM_GetEnv th vm in
  LOG_ALWAYS_FATAL_IF (negb (status =? JNI_OK)%Z) "Failed to get JNIEnv for JavaVM: %p" ;;
  ret env.

(** ** Looper::sendMessage (libutils)

    A message sent without delay goes behind the messages already
    queued. *)

Module Looper.
Section methods.
Context `{AnimationContextBase}.

Definition sendMessage (handler : MessageHandler) (message : Message)
  : M World unit :=
  modify (with_queue (fun q => q ++ [(handler, message)])).
End methods.
End Looper.

(** ** The methods [AnimationContextBridge] inherits *)

Module AnimationContext.
Section methods.
Context `{AnimationContextBase}.

Definition addAnimatingRenderNode (node : RenderNode) : M World unit :=
  call (call_addAnimatingRenderNode node) ;;
  modify (with_bridge (fun b => set_super (base_addAnimatingRenderNode node (super b)) b)).

Definition startFrame : M World unit :=
  call call_AnimationContext_startFrame ;;
  modify (with_bridge (fun b => set_super (base_startFrame (super b)) b)).

(** Modelled from the spec: [AnimationContext::runRemainingAnimations]
    (libs/hwui/AnimationContext.cpp) is not in this file.  It advances
    every active animation, and each animation that signals completion
    during the call reaches the virtual [callOnFinished] of the object
    the method runs on. *)
Definition runRemainingAnimations
           (callOnFinished : BaseRenderNodeAnimator -> AnimationListener -> M World unit)
           (info : TreeInfo) : M World unit :=
  call (call_AnimationContext_runRemainingAnimations info) ;;
  c <- gets (fun w => super (bridge w)) ;;
  let (c', finished) := base_animate info c in
  modify (with_bridge (set_super c')) ;;
  for_each finished (fun '(a, l) => callOnFinished a l).
End methods.
End AnimationContext.

(** ** class InvokeAnimationListeners *)

Module InvokeAnimationListeners.
Section methods.
Context `{AnimationContextBase}.

(** The constructor takes the caller's vector by reference and swaps
    it with its own, freshly constructed one; it yields the new
    object and what the caller's vector holds afterwards. *)
Definition new (events : list OnFinishedEvent)
  : MessageHandler * list OnFinishedEvent :=
  let (mine, theirs) := vector.swap [] events in
  (InvokeAnimationListeners mine, theirs).

Definition callOnFinished (event : OnFinishedEvent) : M World unit :=
  call (call_onAnimationFinished (listener event) (animator event)).

Definition handleMessage (mOnFinishedEvents : list OnFinishedEvent)
           (message : Message) : M World MessageHandler :=
  for_each mOnFinishedEvents callOnFinished ;;
  ret (InvokeAnimationListeners (vector.clear mOnFinishedEvents)).
End methods.
End InvokeAnimationListeners.

(** ** class RenderingException *)

Module RenderingException.
Section methods.
Context `{AnimationContextBase}.

Definition new (vm : JavaVM) (message : string) : MessageHandler :=
  RenderingException vm message.

Definition throwException (th : Thread) (vm : JavaVM) (message : string)
  : M World unit :=
  env <- getenv th vm ;;
  call (call_jniThrowException env "java/lang/IllegalStateException" (c_str message)).

Definition handleMessage (th : Thread) (mVm : JavaVM) (mMessage : string)
           (_ : Message) : M World MessageHandler :=
  throwException th mVm mMessage ;;
  ret (RenderingException mVm mMessage).
End methods.
End RenderingException.

(** ** virtual MessageHandler::handleMessage

    Runs on thread [th]; yields the handler object as it is afterwards. *)

Definition handleMessage `{AnimationContextBase} (th : Thread)
           (handler : MessageHandler) (message : Message) : M World MessageHandler :=
  match handler with
  | InvokeAnimationListeners events =>
      InvokeAnimationListeners.handleMessage events message
  | RenderingException vm msg =>
      RenderingException.handleMessage th vm msg message
  end.

(** ** class RootRenderNode *)

Module RootRenderNode.
(** The constructor, run on thread [th]. *)
Definition new (th : Thread) (env : JNIEnv) : outcome RootRenderNode :=
  let mLooper := Looper_getForThread th in
  match mLooper with
  | None => Fatal "Must create RootRenderNode on a thread with a looper!"
  | Some looper =>
      Ret {| mLooper := looper;
             mVm := JNIEnv_GetJavaVM th env;
             mPendingAnimatingRenderNodes := [] |}
  end.

Section methods.
Context `{AnimationContextBase}.

Definition onError (message : string) : M World unit :=
  vm <- gets (fun w => mVm (mRootNode w)) ;;
  Looper.sendMessage (RenderingException.new vm message) {| what := 0 |}.

Definition sendMessage (handler : MessageHandler) : M World unit :=
  Looper.sendMessage handler {| what := 0 |}.

Definition attachAnimatingNode (animatingNode : RenderNode) : M World unit :=
  modify (with_root (fun r =>
    set_pending (vector.push_back (mPendingAnimatingRenderNodes r) animatingNode) r)).

(** [context] is the bridge of the world: the only caller passes
    [this].  The loop test reads [size()] in every round; no round
    changes the vector, the body reaching the base class only, so the
    bound is read once. *)
Definition doAttachAnimatingNodes : M World unit :=
  n <- gets (fun w => vector.size (mPendingAnimatingRenderNodes (mRootNode w))) ;;
  for_index n 0 (fun i =>
    v <- gets (fun w => mPendingAnimatingRenderNodes (mRootNode w)) ;;
    match vector.at_ v i with
    | Some node => AnimationContext.addAnimatingRenderNode node
    | None => LOG_ALWAYS_FATAL "vector subscript out of range"
    end) ;;
  modify (with_root (fun r => set_pending (vector.clear (mPendingAnimatingRenderNodes r)) r)).
End methods.
End RootRenderNode.

(** ** class AnimationContextBridge *)

Module AnimationContextBridge.
Section methods.
Context `{AnimationContextBase}.

Definition startFrame : M World unit :=
  RootRenderNode.doAttachAnimatingNodes ;;
  AnimationContext.startFrame.

Definition callOnFinished (animator : BaseRenderNodeAnimator)
           (listener : AnimationListener) : M World unit :=
  let event := {| animator := animator; listener := listener |} in
  modify (with_bridge (fun b =>
    set_events (vector.push_back (mOnFinishedEvents b) event) b)).

Definition runRemainingAnimations (info : TreeInfo) : M World unit :=
  AnimationContext.runRemainingAnimations callOnFinished info ;;
  events <- gets (fun w => mOnFinishedEvents (bridge w)) ;;
  if negb (vector.size events =? 0) then
    let (message, events') := InvokeAnimationListeners.new events in
    modify (with_bridge (set_events events')) ;;
    RootRenderNode.sendMessage message
  else ret tt.
End methods.
End AnimationContextBridge.

(** ** The owner thread's loop

    One turn of it ([Looper::pollOnce], libutils): the oldest message is
    taken off the queue and handed to its handler, on thread [th]; the
    looper then drops its reference to the handler. *)

Module OwnerThread.
Section methods.
Context `{AnimationContextBase}.

Definition pollOnce (th : Thread) : M World unit :=
  q <- gets queue ;;
  match q with
  | [] => ret tt
  | (handler, message) :: rest =>
      modify (with_queue (fun _ => rest)) ;;
      _ <- handleMessage th handler message ;;
      ret tt
  end.
End methods.
End OwnerThread.

(** ** The animation context of the specification *)

(** Modelled from the spec: the member variables of [AnimationContext]
    (libs/hwui/AnimationContext.h), which is not in this file.  The
    context has an active set, the animating nodes attached to it, kept in
    the order they were attached; [framesStarted] counts the per-frame
    setups done. *)
Record SpecContext := {
  activeSet : list RenderNode;
  framesStarted : nat
}.

(** Modelled from the spec: [AnimationContext::addAnimatingRenderNode]
    (libs/hwui/AnimationContext.cpp) is not in this file.  A drained node
    is moved into the active set, behind the nodes already there; nothing
    is said of duplicates, and none is removed. *)
Definition spec_addAnimatingRenderNode (node : RenderNode) (c : SpecContext)
  : SpecContext :=
  {| activeSet := activeSet c ++ [node]; framesStarted := framesStarted c |}.

(** Modelled from the spec: [AnimationContext::startFrame]
    (libs/hwui/AnimationContext.cpp) is not in this file.  It is the
    generic per-frame time and animation setup; it attaches and detaches
    nothing. *)
Definition spec_startFrame (c : SpecContext) : SpecContext :=
  {| activeSet := activeSet c; framesStarted := Datatypes.S (framesStarted c) |}.

(** Modelled from the spec: the [AnimationContext] of the spec as a base
    class, for an animation driver [animate] (the code that advances the
    animations is an external collaborator of the spec). *)
Definition SpecAnimationContext
           (animate : TreeInfo -> SpecContext ->
                      SpecContext * list (BaseRenderNodeAnimator * AnimationListener))
  : AnimationContextBase :=
  {| context := SpecContext;
     base_addAnimatingRenderNode := spec_addAnimatingRenderNode;
     base_startFrame := spec_startFrame;
     base_animate := animate |}.

(** ** Derived notions used in the statements *)

Section Notions.
Context `{AnimationContextBase}.

Definition event_of (p : BaseRenderNodeAnimator * AnimationListener) : OnFinishedEvent :=
  {| animator := fst p; listener := snd p |}.

(** The finished-event batch at the moment the advancement of the frame
    returns: the events recorded earlier in the frame, then one event
    for each completion the advancement signals. *)
Definition batch_after_advancement (info : TreeInfo) (w : World)
  : list OnFinishedEvent :=
  mOnFinishedEvents (bridge w)
    ++ map event_of (snd (base_animate info (super (bridge w)))).

(** The listener invocation that delivers an event. *)
Definition delivery (e : OnFinishedEvent) : Call :=
  call_onAnimationFinished (listener e) (animator e).

(** The state of the base subobject after attaching [nodes] one by one. *)
Definition attached (nodes : list RenderNode) (c : context) : context :=
  fold_left (fun c node => base_addAnimatingRenderNode node c) nodes c.

Definition is_attach_of (node : RenderNode) (c : Call) : bool :=
  match c with
  | call_addAnimatingRenderNode n => N.eqb n node
  | _ => false
  end.

(** How many times [node] is attached to the animation context in a
    run of calls. *)
Definition attachments (node : RenderNode) (cs : list Call) : nat :=
  List.length (filter (is_attach_of node) cs).

(** How many entries of the pending registry are [node]. *)
Definition registrations (node : RenderNode) (v : list RenderNode) : nat :=
  count_occ N.eq_dec v node.

(** [registerAnimatingNode] called once for each node of [nodes]. *)
Definition register_all (nodes : list RenderNode) : M World unit :=
  for_each nodes RootRenderNode.attachAnimatingNode.
End Notions.

(** ** The worlds the methods lead to *)

Section Results.
Context `{AnimationContextBase}.

(** After the listeners of [events] were called, first to last. *)
Definition delivered (events : list OnFinishedEvent) (w : World) : World :=
  {| mRootNode := mRootNode w; bridge := bridge w; queue := queue w;
     calls := calls w ++ map delivery events |}.

(** After [nodes] were appended to the pending registry. *)
Definition registered (nodes : list RenderNode) (w : World) : World :=
  with_root (fun r => set_pending (mPendingAnimatingRenderNodes r ++ nodes) r) w.

(** After the pending registry was drained into the bridge. *)
Definition drained (w : World) : World :=
  let pending := mPendingAnimatingRenderNodes (mRootNode w) in
  {| mRootNode := set_pending [] (mRootNode w);
     bridge := set_super (attached pending (super (bridge w))) (bridge w);
     queue := queue w;
     calls := calls w ++ map call_addAnimatingRenderNode pending |}.

(** After [events] were added to the batch of the bridge. *)
Definition recorded (events : list OnFinishedEvent) (w : World) : World :=
  with_bridge (fun b => set_events (mOnFinishedEvents b ++ events) b) w.

(** After the inherited [runRemainingAnimations] returned. *)
Definition advanced (info : TreeInfo) (w : World) : World :=
  {| mRootNode := mRootNode w;
     bridge := {| super := fst (base_animate info (super (bridge w)));
                  mOnFinishedEvents := batch_after_advancement info w |};
     queue := queue w;
     calls := calls w ++ [call_AnimationContext_runRemainingAnimations info] |}.

(** After the batch, if it holds an event, was posted. *)
Definition flushed (w : World) : World :=
  match mOnFinishedEvents (bridge w) with
  | [] => w
  | _ :: _ =>
      {| mRootNode := mRootNode w;
         bridge := set_events [] (bridge w);
         queue := queue w
                    ++ [(InvokeAnimationListeners (mOnFinishedEvents (bridge w)),
                         {| what := 0 |})];
         calls := calls w |}
  end.
End Results.

(** ** Concrete threads and worlds *)

Module Example.
Definition vm : JavaVM := 1%N.
Definition env : JNIEnv := 11%N.

(** A Java thread with a looper, attached to [vm]. *)
Definition owner : Thread :=
  {| Looper_getForThread := Some 7%N;
     JavaVM_GetEnv := fun v => if N.eqb v vm then (JNI_OK, env) else (JNI_EDETACHED, 0%N);
     JNIEnv_GetJavaVM := fun _ => vm |}.

(** A thread that never prepared a looper. *)
Definition worker : Thread :=
  {| Looper_getForThread := None;
     JavaVM_GetEnv := fun _ => (JNI_EDETACHED, 0%N);
     JNIEnv_GetJavaVM := fun _ => vm |}.

(** A driver under which no animation ends. *)
Definition idle (_ : TreeInfo) (c : SpecContext)
  : SpecContext * list (BaseRenderNodeAnimator * AnimationListener) := (c, []).

(** A driver under which animator 21 (listener 31), then animator 22
    (listener 32) end in each frame. *)
Definition busy (_ : TreeInfo) (c : SpecContext)
  : SpecContext * list (BaseRenderNodeAnimator * AnimationListener) :=
  (c, [(21%N, 31%N); (22%N, 32%N)]).

Definition root : RootRenderNode :=
  {| mLooper := 7%N; mVm := vm; mPendingAnimatingRenderNodes := [] |}.

Definition world animate : @World (SpecAnimationContext animate) :=
  {| mRootNode := root;
     bridge := {| super := ({| activeSet := []; framesStarted := 0 |} : @context (SpecAnimationContext animate));
                  mOnFinishedEvents := [] |};
     queue := [];
     calls := [] |}.

Definition text_with_NUL : string :=
  String "a" (String NUL (String "b" EmptyString)).
End Example.

(** * The rest of the bridge *)

(** ** RootRenderNode::prepareTree

    [TreeInfo::errorHandler] is NULL, or points to the root node of the
    world, or to a handler that is no object of this file. *)

Inductive ErrorHandler :=
| handler_RootRenderNode
| handler_elsewhere (a : address).

Record TreeInfoFields := { errorHandler : option ErrorHandler }.

(** What a traversal of the tree comes across, in the order it does: an
    inconsistency it reports, or an animation that ends. *)
Inductive Finding :=
| finds_error (message : string)
| finds_finished (a : BaseRenderNodeAnimator) (l : AnimationListener).

Section Traversal.
Context `{AnimationContextBase}.

(** Modelled from the spec: [RenderNode::prepareTree]
    (libs/hwui/RenderNode.cpp) is not in this file.  The traversal
    reports every inconsistency it detects to the error handler of
    [info], when there is one, and every animation that ends while the
    tree is prepared to [callOnFinished] of the animation context. *)
Definition RenderNode_prepareTree (findings : list Finding) (info : TreeInfoFields)
  : M World unit :=
  for_each findings (fun finding =>
    match finding with
    | finds_error message =>
        match errorHandler info with
        | Some handler_RootRenderNode => RootRenderNode.onError message
        | Some (handler_elsewhere _) => ret tt
        | None => ret tt
        end
    | finds_finished a l => AnimationContextBridge.callOnFinished a l
    end).

(** [RootRenderNode::prepareTree(TreeInfo& info)]: [info] as it is at
    the call, and as it is left. *)
Definition RootRenderNode_prepareTree (findings : list Finding) (info : TreeInfoFields)
  : M World TreeInfoFields :=
  let info := {| errorHandler := Some handler_RootRenderNode |} in
  RenderNode_prepareTree findings info ;;
  let info := {| errorHandler := None |} in
  ret info.
End Traversal.

(** ** class ContextFactoryImpl *)

Module ContextFactoryImpl.
Section methods.
Context `{AnimationContextBase}.

End methods.
End ContextFactoryImpl.


(** ** Runs of calls into the bridge *)

Inductive Op :=
| op_attachAnimatingNode (node : RenderNode)
| op_startFrame
| op_prepareTree (findings : list Finding) (info : TreeInfoFields)
| op_callOnFinished (a : BaseRenderNodeAnimator) (l : AnimationListener)
| op_runRemainingAnimations (info : TreeInfo)
| op_onError (message : string).

Section Runs.
Context `{AnimationContextBase}.

Definition run_op (op : Op) : M World unit :=
  match op with
  | op_attachAnimatingNode node => RootRenderNode.attachAnimatingNode node
  | op_startFrame => AnimationContextBridge.startFrame
  | op_prepareTree findings info =>
      _ <- RootRenderNode_prepareTree findings info ;; ret tt
  | op_callOnFinished a l => AnimationContextBridge.callOnFinished a l
  | op_runRemainingAnimations info => AnimationContextBridge.runRemainingAnimations info
  | op_onError message => RootRenderNode.onError message
  end.

Definition run_ops (ops : list Op) : M World unit := for_each ops run_op.

(** The texts of the errors among [findings], and the events for the
    animations that end among them. *)
Definition errors_of (findings : list Finding) : list string :=
  flat_map (fun finding => match finding with
                           | finds_error message => [message]
                           | finds_finished _ _ => []
                           end) findings.

Definition finished_of (findings : list Finding) : list OnFinishedEvent :=
  flat_map (fun finding => match finding with
                           | finds_error _ => []
                           | finds_finished a l => [event_of (a, l)]
                           end) findings.

(** The message [onError] posts for a text. *)
Definition error_message (vm : JavaVM) (message : string) : MessageHandler * Message :=
  (RenderingException vm message, {| what := 0 |}).

(** The events a queued message holds. *)
Definition events_of (m : MessageHandler * Message) : list OnFinishedEvent :=
  match fst m with
  | InvokeAnimationListeners events => events
  | RenderingException _ _ => []
  end.

(** The events recorded and not yet handed to a listener: those in the
    queued messages, oldest first, then those of the batch. *)
Definition undelivered (w : World) : list OnFinishedEvent :=
  flat_map events_of (queue w) ++ mOnFinishedEvents (bridge w).

(** The events an operation records when it runs in [w]. *)
Definition recorded_by (op : Op) (w : World) : list OnFinishedEvent :=
  match op with
  | op_callOnFinished a l => [event_of (a, l)]
  | op_prepareTree findings _ => finished_of findings
  | op_runRemainingAnimations info =>
      map event_of (snd (base_animate info (super (bridge w))))
  | _ => []
  end.

Fixpoint recorded_during (ops : list Op) (w : World) : list OnFinishedEvent :=
  match ops with
  | [] => []
  | op :: rest =>
      recorded_by op w
        ++ match run_op op w with
           | Ret (_, w') => recorded_during rest w'
           | Fatal _ => []
           end
  end.

(** The nodes a run registers, in order. *)
Definition registered_by (op : Op) : list RenderNode :=
  match op with
  | op_attachAnimatingNode node => [node]
  | _ => []
  end.

(** The nodes attached to the animation context in a run of calls. *)
Definition attach_log (cs : list Call) : list RenderNode :=
  flat_map (fun c => match c with
                     | call_addAnimatingRenderNode node => [node]
                     | _ => []
                     end) cs.

(** The events handed to listeners in a run of calls, and the texts
    thrown. *)
Definition deliveries (cs : list Call) : list OnFinishedEvent :=
  flat_map (fun c => match c with
                     | call_onAnimationFinished l a => [{| animator := a; listener := l |}]
                     | _ => []
                     end) cs.

Definition thrown (cs : list Call) : list string :=
  flat_map (fun c => match c with
                     | call_jniThrowException _ _ msg => [msg]
                     | _ => []
                     end) cs.

(** The texts of the queued errors, oldest first. *)
Definition queued_errors (q : list (MessageHandler * Message)) : list string :=
  flat_map (fun m => match fst m with
                     | RenderingException _ msg => [msg]
                     | InvokeAnimationListeners _ => []
                     end) q.

(** A message as this file posts it for a root whose VM is [vm]. *)
Definition well_posted (vm : JavaVM) (m : MessageHandler * Message) : Prop :=
  what (snd m) = 0%Z /\
  match fst m with
  | InvokeAnimationListeners events => events <> []
  | RenderingException vm' _ => vm' = vm
  end.

(** The texts an operation reports as errors. *)
Definition errors_reported_by (op : Op) : list string :=
  match op with
  | op_onError message => [message]
  | op_prepareTree findings _ => errors_of findings
  | _ => []
  end.

(** What the flush at the end of a frame posts for a batch. *)
Definition posting (batch : list OnFinishedEvent) : list (MessageHandler * Message) :=
  match batch with
  | [] => []
  | _ :: _ => [(InvokeAnimationListeners batch, {| what := 0 |})]
  end.

(** After a traversal that came across [findings]. *)
Definition traversed (findings : list Finding) (w : World) : World :=
  {| mRootNode := mRootNode w;
     bridge := set_events (mOnFinishedEvents (bridge w) ++ finished_of findings) (bridge w);
     queue := queue w ++ map (error_message (mVm (mRootNode w))) (errors_of findings);
     calls := calls w |}.


End Runs.

(** * The JNI glue *)

(** ** nSetAtlas

    A [jlongArray] is the sequence of its elements; [GetArrayLength]
    and [GetLongArrayRegion] are the JNI functions of those names. *)

Definition jlongArray := list Z.

Definition GetArrayLength (array : jlongArray) : Z := Z.of_nat (List.length array).

Definition GetLongArrayRegion (array : jlongArray) (start len : Z) : list Z :=
  firstn (Z.to_nat len) (skipn (Z.to_nat start) array).

(** What the glue function does that can be seen from outside. *)
Inductive GlueCall :=
| call_ALOGW (msg : string)
| call_setTextureAtlas (proxy : Z) (buffer : address) (map : list Z) (len : Z).

(** [graphicBufferForJavaObject] is defined elsewhere and a parameter
    here; [proxyPtr] is the [RenderProxy*] held by the Java side as a
    [jlong]. *)
Definition android_view_ThreadedRenderer_setAtlas
           (graphicBufferForJavaObject : address -> address)
           (proxyPtr : Z) (graphicBuffer : address) (atlasMapArray : jlongArray)
  : list GlueCall :=
  let buffer := graphicBufferForJavaObject graphicBuffer in
  let len := GetArrayLength atlasMapArray in
  if (len <=? 0)%Z then
    [call_ALOGW "Failed to initialize atlas, invalid map length: %d"]
  else
    let map := GetLongArrayRegion atlasMapArray 0 len in
    let proxy := proxyPtr in
    [call_setTextureAtlas proxy buffer map len].

(** ** The table of native methods *)

(** The C types of the parameters and results of the native functions. *)
Inductive ctype :=
| c_void | c_int | c_jboolean | c_jint | c_jlong | c_jfloat
| c_jobject | c_jstring | c_jlongArray.

(** The static functions of the file, each with its result type and the
    types of its parameters after [JNIEnv* env, jobject clazz]. *)
Record NativeFunction := {
  c_name : string;
  c_result : ctype;
  c_params : list ctype
}.

Definition fn (name : string) (result : ctype) (params : list ctype) : NativeFunction :=
  {| c_name := name; c_result := result; c_params := params |}.

Definition android_view_ThreadedRenderer_setAtlas_fn :=
  fn "android_view_ThreadedRenderer_setAtlas" c_void [c_jlong; c_jobject; c_jlongArray].
Definition android_view_ThreadedRenderer_createRootRenderNode_fn :=
  fn "android_view_ThreadedRenderer_createRootRenderNode" c_jlong [].
Definition android_view_ThreadedRenderer_createProxy_fn :=
  fn "android_view_ThreadedRenderer_createProxy" c_jlong [c_jboolean; c_jlong].
Definition android_view_ThreadedRenderer_deleteProxy_fn :=
  fn "android_view_ThreadedRenderer_deleteProxy" c_void [c_jlong].
Definition android_view_ThreadedRenderer_setFrameInterval_fn :=
  fn "android_view_ThreadedRenderer_setFrameInterval" c_void [c_jlong; c_jlong].
Definition android_view_ThreadedRenderer_loadSystemProperties_fn :=
  fn "android_view_ThreadedRenderer_loadSystemProperties" c_jboolean [c_jlong].
Definition android_view_ThreadedRenderer_initialize_fn :=
  fn "android_view_ThreadedRenderer_initialize" c_jboolean [c_jlong; c_jobject].
Definition android_view_ThreadedRenderer_updateSurface_fn :=
  fn "android_view_ThreadedRenderer_updateSurface" c_void [c_jlong; c_jobject].
Definition android_view_ThreadedRenderer_pauseSurface_fn :=
  fn "android_view_ThreadedRenderer_pauseSurface" c_void [c_jlong; c_jobject].
Definition android_view_ThreadedRenderer_setup_fn :=
  fn "android_view_ThreadedRenderer_setup" c_void
     [c_jlong; c_jint; c_jint; c_jfloat; c_jfloat; c_jfloat; c_jfloat; c_jint; c_jint].
Definition android_view_ThreadedRenderer_setOpaque_fn :=
  fn "android_view_ThreadedRenderer_setOpaque" c_void [c_jlong; c_jboolean].
Definition android_view_ThreadedRenderer_syncAndDrawFrame_fn :=
  fn "android_view_ThreadedRenderer_syncAndDrawFrame" c_int
     [c_jlong; c_jlong; c_jlong; c_jfloat].
Definition android_view_ThreadedRenderer_destroy_fn :=
  fn "android_view_ThreadedRenderer_destroy" c_void [c_jlong].
Definition android_view_ThreadedRenderer_registerAnimatingRenderNode_fn :=
  fn "android_view_ThreadedRenderer_registerAnimatingRenderNode" c_void [c_jlong; c_jlong].
Definition android_view_ThreadedRenderer_invokeFunctor_fn :=
  fn "android_view_ThreadedRenderer_invokeFunctor" c_void [c_jlong; c_jboolean].
Definition android_view_ThreadedRenderer_createDisplayListLayer_fn :=
  fn "android_view_ThreadedRenderer_createDisplayListLayer" c_jlong [c_jlong; c_jint; c_jint].
Definition android_view_ThreadedRenderer_createTextureLayer_fn :=
  fn "android_view_ThreadedRenderer_createTextureLayer" c_jlong [c_jlong].
Definition android_view_ThreadedRenderer_buildLayer_fn :=
  fn "android_view_ThreadedRenderer_buildLayer" c_void [c_jlong; c_jlong].
Definition android_view_ThreadedRenderer_copyLayerInto_fn :=
  fn "android_view_ThreadedRenderer_copyLayerInto" c_jboolean [c_jlong; c_jlong; c_jlong].
Definition android_view_ThreadedRenderer_pushLayerUpdate_fn :=
  fn "android_view_ThreadedRenderer_pushLayerUpdate" c_void [c_jlong; c_jlong].
Definition android_view_ThreadedRenderer_cancelLayerUpdate_fn :=
  fn "android_view_ThreadedRenderer_cancelLayerUpdate" c_void [c_jlong; c_jlong].
Definition android_view_ThreadedRenderer_detachSurfaceTexture_fn :=
  fn "android_view_ThreadedRenderer_detachSurfaceTexture" c_void [c_jlong; c_jlong].
Definition android_view_ThreadedRenderer_destroyHardwareResources_fn :=
  fn "android_view_ThreadedRenderer_destroyHardwareResources" c_void [c_jlong].
Definition android_view_ThreadedRenderer_trimMemory_fn :=
  fn "android_view_ThreadedRenderer_trimMemory" c_void [c_jint].
Definition android_view_ThreadedRenderer_fence_fn :=
  fn "android_view_ThreadedRenderer_fence" c_void [c_jlong].
Definition android_view_ThreadedRenderer_stopDrawing_fn :=
  fn "android_view_ThreadedRenderer_stopDrawing" c_void [c_jlong].
Definition android_view_ThreadedRenderer_notifyFramePending_fn :=
  fn "android_view_ThreadedRenderer_notifyFramePending" c_void [c_jlong].
Definition android_view_ThreadedRenderer_dumpProfileInfo_fn :=
  fn "android_view_ThreadedRenderer_dumpProfileInfo" c_void [c_jlong; c_jobject].
Definition android_view_ThreadedRenderer_setupShadersDiskCache_fn :=
  fn "android_view_ThreadedRenderer_setupShadersDiskCache" c_void [c_jstring].

Record JNINativeMethod := {
  name : string;
  signature : string;
  fnPtr : NativeFunction
}.

Definition kClassPathName : string := "android/view/ThreadedRenderer".

(** [gMethods], for a build with or without [USE_OPENGL_RENDERER]. *)
Definition gMethods (USE_OPENGL_RENDERER : bool) : list JNINativeMethod :=
  (if USE_OPENGL_RENDERER then
     [ {| name := "nSetAtlas"; signature := "(JLandroid/view/GraphicBuffer;[J)V";
          fnPtr := android_view_ThreadedRenderer_setAtlas_fn |};
       {| name := "nCreateRootRenderNode"; signature := "()J";
          fnPtr := android_view_ThreadedRenderer_createRootRenderNode_fn |};
       {| name := "nCreateProxy"; signature := "(ZJ)J";
          fnPtr := android_view_ThreadedRenderer_createProxy_fn |};
       {| name := "nDeleteProxy"; signature := "(J)V";
          fnPtr := android_view_ThreadedRenderer_deleteProxy_fn |};
       {| name := "nSetFrameInterval"; signature := "(JJ)V";
          fnPtr := android_view_ThreadedRenderer_setFrameInterval_fn |};
       {| name := "nLoadSystemProperties"; signature := "(J)Z";
          fnPtr := android_view_ThreadedRenderer_loadSystemProperties_fn |};
       {| name := "nInitialize"; signature := "(JLandroid/view/Surface;)Z";
          fnPtr := android_view_ThreadedRenderer_initialize_fn |};
       {| name := "nUpdateSurface"; signature := "(JLandroid/view/Surface;)V";
          fnPtr := android_view_ThreadedRenderer_updateSurface_fn |};
       {| name := "nPauseSurface"; signature := "(JLandroid/view/Surface;)V";
          fnPtr := android_view_ThreadedRenderer_pauseSurface_fn |};
       {| name := "nSetup"; signature := "(JIIFFFFII)V";
          fnPtr := android_view_ThreadedRenderer_setup_fn |};
       {| name := "nSetOpaque"; signature := "(JZ)V";
          fnPtr := android_view_ThreadedRenderer_setOpaque_fn |};
       {| name := "nSyncAndDrawFrame"; signature := "(JJJF)I";
          fnPtr := android_view_ThreadedRenderer_syncAndDrawFrame_fn |};
       {| name := "nDestroy"; signature := "(J)V";
          fnPtr := android_view_ThreadedRenderer_destroy_fn |};
       {| name := "nRegisterAnimatingRenderNode"; signature := "(JJ)V";
          fnPtr := android_view_ThreadedRenderer_registerAnimatingRenderNode_fn |};
       {| name := "nInvokeFunctor"; signature := "(JZ)V";
          fnPtr := android_view_ThreadedRenderer_invokeFunctor_fn |};
       {| name := "nCreateDisplayListLayer"; signature := "(JII)J";
          fnPtr := android_view_ThreadedRenderer_createDisplayListLayer_fn |};
       {| name := "nCreateTextureLayer"; signature := "(J)J";
          fnPtr := android_view_ThreadedRenderer_createTextureLayer_fn |};
       {| name := "nBuildLayer"; signature := "(JJ)V";
          fnPtr := android_view_ThreadedRenderer_buildLayer_fn |};
       {| name := "nCopyLayerInto"; signature := "(JJJ)Z";
          fnPtr := android_view_ThreadedRenderer_copyLayerInto_fn |};
       {| name := "nPushLayerUpdate"; signature := "(JJ)V";
          fnPtr := android_view_ThreadedRenderer_pushLayerUpdate_fn |};
       {| name := "nCancelLayerUpdate"; signature := "(JJ)V";
          fnPtr := android_view_ThreadedRenderer_cancelLayerUpdate_fn |};
       {| name := "nDetachSurfaceTexture"; signature := "(JJ)V";
          fnPtr := android_view_ThreadedRenderer_detachSurfaceTexture_fn |};
       {| name := "nDestroyHardwareResources"; signature := "(J)V";
          fnPtr := android_view_ThreadedRenderer_destroyHardwareResources_fn |};
       {| name := "nTrimMemory"; signature := "(I)V";
          fnPtr := android_view_ThreadedRenderer_trimMemory_fn |};
       {| name := "nFence"; signature := "(J)V";
          fnPtr := android_view_ThreadedRenderer_fence_fn |};
       {| name := "nStopDrawing"; signature := "(J)V";
          fnPtr := android_view_ThreadedRenderer_stopDrawing_fn |};
       {| name := "nNotifyFramePending"; signature := "(J)V";
          fnPtr := android_view_ThreadedRenderer_notifyFramePending_fn |};
       {| name := "nDumpProfileInfo"; signature := "(JLjava/io/FileDescriptor;)V";
          fnPtr := android_view_ThreadedRenderer_dumpProfileInfo_fn |} ]
   else [])
  ++ [ {| name := "setupShadersDiskCache"; signature := "(Ljava/lang/String;)V";
          fnPtr := android_view_ThreadedRenderer_setupShadersDiskCache_fn |} ].

(** [NELEM(gMethods)] *)
Definition NELEM {A} (table : list A) : Z := Z.of_nat (List.length table).

(** What [register_android_view_ThreadedRenderer] hands to
    [AndroidRuntime::registerNativeMethods]. *)
Definition register_android_view_ThreadedRenderer (USE_OPENGL_RENDERER : bool)
  : string * list JNINativeMethod * Z :=
  (kClassPathName, gMethods USE_OPENGL_RENDERER, NELEM (gMethods USE_OPENGL_RENDERER)).

(** *** JNI type signatures

    The grammar of the JNI specification: [(] parameter types [)] result
    type, a type being one letter, [L] class [;] or [[] type. *)

Inductive jtype :=
| sig_V | sig_Z | sig_B | sig_C | sig_S | sig_I | sig_J | sig_F | sig_D
| sig_L (class : string)
| sig_array (element : jtype).

Fixpoint until_semicolon (s : string) : option (string * string) :=
  match s with
  | EmptyString => None
  | String c rest =>
      if Ascii.eqb c ";" then Some (EmptyString, rest)
      else match until_semicolon rest with
           | Some (class, rest') => Some (String c class, rest')
           | None => None
           end
  end.

Fixpoint parse_type (s : string) : option (jtype * string) :=
  match s with
  | EmptyString => None
  | String c rest =>
      if Ascii.eqb c "V" then Some (sig_V, rest)
      else if Ascii.eqb c "Z" then Some (sig_Z, rest)
      else if Ascii.eqb c "B" then Some (sig_B, rest)
      else if Ascii.eqb c "C" then Some (sig_C, rest)
      else if Ascii.eqb c "S" then Some (sig_S, rest)
      else if Ascii.eqb c "I" then Some (sig_I, rest)
      else if Ascii.eqb c "J" then Some (sig_J, rest)
      else if Ascii.eqb c "F" then Some (sig_F, rest)
      else if Ascii.eqb c "D" then Some (sig_D, rest)
      else if Ascii.eqb c "L" then
        match until_semicolon rest with
        | Some (class, rest') => Some (sig_L class, rest')
        | None => None
        end
      else if Ascii.eqb c "[" then
        match parse_type rest with
        | Some (element, rest') => Some (sig_array element, rest')
        | None => None
        end
      else None
  end.

(** The parameter types up to the closing parenthesis; a type takes at
    least one char, so the length of the text is fuel enough. *)
Fixpoint parse_params (fuel : nat) (s : string) : option (list jtype * string) :=
  match fuel with
  | O => None
  | Datatypes.S fuel' =>
      match s with
      | String c rest =>
          if Ascii.eqb c ")" then Some ([], rest)
          else match parse_type s with
               | Some (t, s') =>
                   match parse_params fuel' s' with
                   | Some (ts, s'') => Some (t :: ts, s'')
                   | None => None
                   end
               | None => None
               end
      | EmptyString => None
      end
  end.

Definition parse_signature (s : string) : option (list jtype * jtype) :=
  match s with
  | String c rest =>
      if Ascii.eqb c "(" then
        match parse_params (String.length s) rest with
        | Some (params, rest') =>
            match parse_type rest' with
            | Some (result, EmptyString) => Some (params, result)
            | _ => None
            end
        | None => None
        end
      else None
  | EmptyString => None
  end.

(** Whether a C type is the one JNI passes for a type of a signature. *)
Definition passes (c : ctype) (t : jtype) : bool :=
  match c, t with
  | c_void, sig_V => true
  | c_jboolean, sig_Z => true
  | c_jint, sig_I => true
  | c_int, sig_I => true
  | c_jlong, sig_J => true
  | c_jfloat, sig_F => true
  | c_jstring, sig_L class => String.eqb class "java/lang/String"
  | c_jobject, sig_L _ => true
  | c_jlongArray, sig_array sig_J => true
  | _, _ => false
  end.

Fixpoint all_pass (cs : list ctype) (ts : list jtype) : bool :=
  match cs, ts with
  | [], [] => true
  | c :: cs', t :: ts' => passes c t && all_pass cs' ts'
  | _, _ => false
  end.

(** An entry whose signature is well formed and says what its function
    takes and returns. *)
Definition consistent (m : JNINativeMethod) : bool :=
  match parse_signature (signature m) with
  | Some (params, result) =>
      all_pass (c_params (fnPtr m)) params && passes (c_result (fnPtr m)) result
  | None => false
  end.

Fixpoint distinct (names : list string) : bool :=
  match names with
  | [] => true
  | n :: rest => negb (existsb (String.eqb n) rest) && distinct rest
  end.

(** * Facts *)

(** ** Running computations *)

Section Running.
Context {S : Type}.

Lemma bind_Ret {A B} (c : M S A) (k : A -> M S B) s a s' :
  c s = Ret (a, s') -> bind c k s = k a s'.
Proof. intros E. unfold bind. rewrite E. reflexivity. Qed.

Lemma bind_Fatal {A B} (c : M S A) (k : A -> M S B) s msg :
  c s = Fatal msg -> bind c k s = Fatal msg.
Proof. intros E. unfold bind. rewrite E. reflexivity. Qed.
End Running.

Section Extensionality.
Context `{AnimationContextBase}.

Lemma world_eq (w w' : World) :
  mRootNode w = mRootNode w' -> bridge w = bridge w' ->
  queue w = queue w' -> calls w = calls w' -> w = w'.
Proof. destruct w, w'; simpl; intros; subst; reflexivity. Qed.

Lemma root_eq (r r' : RootRenderNode) :
  mLooper r = mLooper r' -> mVm r = mVm r' ->
  mPendingAnimatingRenderNodes r = mPendingAnimatingRenderNodes r' -> r = r'.
Proof. destruct r, r'; simpl; intros; subst; reflexivity. Qed.

Lemma bridge_eq (b b' : AnimationContextBridge) :
  super b = super b' -> mOnFinishedEvents b = mOnFinishedEvents b' -> b = b'.
Proof. destruct b, b'; simpl; intros; subst; reflexivity. Qed.
End Extensionality.

(** Two runs end in the same world when the four parts agree. *)
Ltac same_world :=
  do 2 f_equal; apply world_eq; simpl; auto using app_nil_r.

Section Facts.
Context `{AnimationContextBase}.

(** *** The listeners of a batch are called one after the other *)

Lemma for_each_callOnFinished events : forall w,
  for_each events InvokeAnimationListeners.callOnFinished w
  = Ret (tt, delivered events w).
Proof.
  induction events as [|e events IH]; intros w; simpl.
  - unfold ret. same_world.
  - unfold bind, InvokeAnimationListeners.callOnFinished, call, modify.
    rewrite IH. same_world.
    now rewrite <- app_assoc.
Qed.

(** *** The drain loop *)

Lemma drain_loop rest : forall done w,
  mPendingAnimatingRenderNodes (mRootNode w) = done ++ rest ->
  for_index (List.length rest) (List.length done)
    (fun i =>
       v <- gets (fun w => mPendingAnimatingRenderNodes (mRootNode w)) ;;
       match vector.at_ v i with
       | Some node => AnimationContext.addAnimatingRenderNode node
       | None => LOG_ALWAYS_FATAL "vector subscript out of range"
       end) w
  = Ret (tt, {| mRootNode := mRootNode w;
                bridge := set_super (attached rest (super (bridge w))) (bridge w);
                queue := queue w;
                calls := calls w ++ map call_addAnimatingRenderNode rest |}).
Proof.
  induction rest as [|node rest IH]; intros done w E; simpl.
  - unfold ret. same_world.
    now apply bridge_eq.
  - unfold bind at 1. unfold bind at 1. unfold gets at 1. rewrite E.
    unfold vector.at_. rewrite nth_error_app2, Nat.sub_diag by lia. simpl.
    unfold AnimationContext.addAnimatingRenderNode, bind, call, modify at 1 2.
    specialize (IH (done ++ [node])).
    rewrite length_app, Nat.add_1_r in IH.
    rewrite IH by (simpl; rewrite E, <- app_assoc; reflexivity).
    do 2 f_equal. apply world_eq; simpl; auto.
    now rewrite <- app_assoc.
Qed.

Lemma doAttachAnimatingNodes_run w :
  RootRenderNode.doAttachAnimatingNodes w = Ret (tt, drained w).
Proof.
  unfold RootRenderNode.doAttachAnimatingNodes.
  unfold bind at 1, gets at 1, vector.size.
  erewrite bind_Ret by (apply (drain_loop _ [] w); reflexivity).
  unfold modify. do 2 f_equal.
Qed.

(** *** Registration *)

Lemma register_all_run nodes : forall w,
  register_all nodes w = Ret (tt, registered nodes w).
Proof.
  unfold register_all.
  induction nodes as [|node nodes IH]; intros w; simpl.
  - unfold ret. same_world.
    apply root_eq; simpl; auto using app_nil_r.
  - unfold bind, RootRenderNode.attachAnimatingNode, modify at 1.
    rewrite IH. same_world.
    apply root_eq; simpl; auto.
    unfold vector.push_back. now rewrite <- app_assoc.
Qed.

(** *** Advancement *)

Lemma callOnFinished_all finished : forall w,
  for_each finished (fun '(a, l) => AnimationContextBridge.callOnFinished a l) w
  = Ret (tt, recorded (map event_of finished) w).
Proof.
  induction finished as [|[a l] finished IH]; intros w; simpl.
  - unfold ret. same_world.
    apply bridge_eq; simpl; auto using app_nil_r.
  - unfold bind, AnimationContextBridge.callOnFinished, modify at 1.
    rewrite IH. same_world.
    apply bridge_eq; simpl; auto.
    unfold vector.push_back, event_of. simpl. now rewrite <- app_assoc.
Qed.

Lemma advancement_run info w :
  AnimationContext.runRemainingAnimations AnimationContextBridge.callOnFinished info w
  = Ret (tt, advanced info w).
Proof.
  unfold AnimationContext.runRemainingAnimations, advanced, batch_after_advancement.
  unfold bind at 1, call, modify at 1. unfold bind at 1, gets at 1. simpl.
  destruct (base_animate info (super (bridge w))) as [c' finished]. simpl.
  unfold bind at 1, modify at 1.
  rewrite callOnFinished_all. reflexivity.
Qed.

(** *** The flush at the end of the frame *)

Lemma runRemainingAnimations_run info w :
  AnimationContextBridge.runRemainingAnimations info w
  = Ret (tt, flushed (advanced info w)).
Proof.
  unfold AnimationContextBridge.runRemainingAnimations.
  rewrite (bind_Ret _ _ _ (advancement_run info w)).
  unfold bind at 1, gets at 1, flushed.
  destruct (mOnFinishedEvents (bridge (advanced info w))) as [|e events] eqn:E.
  - reflexivity.
  - reflexivity.
Qed.

Lemma startFrame_run w :
  AnimationContextBridge.startFrame w
  = Ret (tt, {| mRootNode := mRootNode (drained w);
                bridge := set_super (base_startFrame (super (bridge (drained w))))
                                    (bridge (drained w));
                queue := queue w;
                calls := calls (drained w) ++ [call_AnimationContext_startFrame] |}).
Proof.
  unfold AnimationContextBridge.startFrame.
  rewrite (bind_Ret _ _ _ (doAttachAnimatingNodes_run w)).
  reflexivity.
Qed.

(** Whatever the base class is: the frame starts with the pending nodes
    attached in the order of the registry, the per-frame setup of the
    base class comes after the last of them, and the registry is left
    empty. *)
Lemma startFrame_drains_then_delegates w :
  exists w',
    AnimationContextBridge.startFrame w = Ret (tt, w') /\
    super (bridge w')
    = base_startFrame
        (attached (mPendingAnimatingRenderNodes (mRootNode w)) (super (bridge w))) /\
    calls w'
    = calls w ++ map call_addAnimatingRenderNode (mPendingAnimatingRenderNodes (mRootNode w))
              ++ [call_AnimationContext_startFrame] /\
    mPendingAnimatingRenderNodes (mRootNode w') = [] /\
    mOnFinishedEvents (bridge w') = mOnFinishedEvents (bridge w) /\
    queue w' = queue w.
Proof.
  eexists. split; [apply startFrame_run|]. simpl.
  rewrite <- app_assoc. repeat split.
Qed.

(** *** One turn of the owner thread's loop *)

Lemma pollOnce_delivers_oldest_batch th events message rest w :
  queue w = (InvokeAnimationListeners events, message) :: rest ->
  exists w',
    OwnerThread.pollOnce th w = Ret (tt, w') /\
    queue w' = rest /\
    calls w' = calls w ++ map delivery events.
Proof.
  intros E. unfold OwnerThread.pollOnce.
  unfold bind at 1, gets at 1. rewrite E.
  unfold bind at 1, modify at 1. unfold bind at 1. simpl.
  unfold InvokeAnimationListeners.handleMessage.
  erewrite bind_Ret by apply for_each_callOnFinished.
  eexists. split; [reflexivity|]. simpl. split; reflexivity.
Qed.

(** *** A thread that is not attached to the VM cannot throw *)

Lemma throwException_detached th vm message w :
  fst (JavaVM_GetEnv th vm) <> JNI_OK ->
  RenderingException.throwException th vm message w
  = Fatal "Failed to get JNIEnv for JavaVM: %p".
Proof.
  intros E. unfold RenderingException.throwException.
  apply bind_Fatal. unfold getenv.
  destruct (JavaVM_GetEnv th vm) as [status env]. simpl in E.
  apply Z.eqb_neq in E. rewrite E. reflexivity.
Qed.
End Facts.

(** ** Counting attachments *)

Lemma attachments_of_registry (node : RenderNode) (v : list RenderNode) :
  attachments node (map call_addAnimatingRenderNode v) = registrations node v.
Proof.
  unfold attachments, registrations.
  induction v as [|n v IH]; simpl; [reflexivity|].
  destruct (N.eq_dec n node) as [E|E].
  - apply N.eqb_eq in E. rewrite E. simpl. now rewrite IH.
  - apply N.eqb_neq in E. rewrite E. exact IH.
Qed.

Lemma registrations_app (node : RenderNode) (v v' : list RenderNode) :
  registrations node (v ++ v') = registrations node v + registrations node v'.
Proof. unfold registrations. apply count_occ_app. Qed.

Lemma registrations_repeat (node : RenderNode) (m : nat) :
  registrations node (repeat node m) = m.
Proof. unfold registrations. apply count_occ_repeat_eq. reflexivity. Qed.

(** ** The active set of the specification's context *)

Lemma activeSet_attached animate (nodes : list RenderNode) :
  forall c : SpecContext,
    activeSet (@attached (SpecAnimationContext animate) nodes c) = activeSet c ++ nodes.
Proof.
  unfold attached.
  induction nodes as [|node nodes IH]; intros c; simpl.
  - now rewrite app_nil_r.
  - rewrite IH. simpl. now rewrite <- app_assoc.
Qed.

(** ** C-strings *)

Lemma c_str_without_NUL (s : string) : has_NUL s = false -> c_str s = s.
Proof.
  induction s as [|c s IH]; simpl; [reflexivity|].
  intros E. apply orb_false_iff in E as [Ec Es].
  rewrite Ec. now rewrite IH.
Qed.

(** * The claims *)

(** ** Frame start *)

(** C1.  Whatever N nodes are registered, one [registerAnimatingNode]
    call each, on an anchor whose registry is empty and for a context
    whose active set is empty: when [startFrame] returns, the active set
    holds exactly these N nodes in the order they were registered, the
    registry is empty again, and every node was attached before the
    per-frame setup of the base class was called. *)
Theorem startFrame_attaches_registered_nodes
        animate (w0 : @World (SpecAnimationContext animate)) (nodes : list RenderNode) :
  mPendingAnimatingRenderNodes (mRootNode w0) = [] ->
  activeSet (super (bridge w0)) = [] ->
  exists w1 w2,
    register_all nodes w0 = Ret (tt, w1) /\
    AnimationContextBridge.startFrame w1 = Ret (tt, w2) /\
    activeSet (super (bridge w2)) = nodes /\
    List.length (activeSet (super (bridge w2))) = List.length nodes /\
    mPendingAnimatingRenderNodes (mRootNode w2) = [] /\
    calls w2 = calls w0 ++ map call_addAnimatingRenderNode nodes
                        ++ [call_AnimationContext_startFrame].
Proof.
  intros Epending Eactive.
  destruct (startFrame_drains_then_delegates (registered nodes w0))
    as (w2 & Erun & Esuper & Ecalls & Eempty & _).
  assert (Eregistry : mPendingAnimatingRenderNodes (mRootNode (registered nodes w0)) = nodes)
    by (simpl; now rewrite Epending).
  rewrite Eregistry in Esuper, Ecalls.
  assert (Eset : activeSet (super (bridge w2)) = nodes).
  { rewrite Esuper. simpl. rewrite activeSet_attached. simpl. now rewrite Eactive. }
  exists (registered nodes w0), w2.
  split; [apply register_all_run|].
  split; [exact Erun|].
  split; [exact Eset|].
  split; [now rewrite Eset|].
  split; [exact Eempty|exact Ecalls].
Qed.

Lemma startFrame_attaches_registered_nodes_witness :
  exists w1 w2,
    register_all [1%N; 2%N; 1%N] (Example.world Example.idle) = Ret (tt, w1) /\
    AnimationContextBridge.startFrame w1 = Ret (tt, w2) /\
    activeSet (super (bridge w2)) = [1%N; 2%N; 1%N] /\
    List.length (activeSet (super (bridge w2))) = 3 /\
    mPendingAnimatingRenderNodes (mRootNode w2) = [] /\
    calls w2 = [call_addAnimatingRenderNode 1%N; call_addAnimatingRenderNode 2%N;
                call_addAnimatingRenderNode 1%N; call_AnimationContext_startFrame].
Proof.
  exact (startFrame_attaches_registered_nodes
           (Example.world Example.idle) [1%N; 2%N; 1%N] eq_refl eq_refl).
Defined.

(** ** The pending registry *)

Section Registry.
Context `{AnimationContextBase}.

(** C6.  A drain right after a drain, with nothing appended in between,
    returns normally and changes nothing: not the state of the animation
    context (its active set included), not the calls made, not the
    registry. *)
Theorem second_drain_is_noop (w : World) :
  exists w1,
    RootRenderNode.doAttachAnimatingNodes w = Ret (tt, w1) /\
    RootRenderNode.doAttachAnimatingNodes w1 = Ret (tt, w1).
Proof.
  exists (drained w). split; [apply doAttachAnimatingNodes_run|].
  rewrite doAttachAnimatingNodes_run. same_world.
Qed.

(** C7.  Registering a node M times adds M entries for it to the
    registry, whatever the registry holds already, and the drain that
    follows calls [addAnimatingRenderNode] for that node once per entry:
    M times when the registry held none before. *)
Theorem registration_is_not_deduplicated (w : World) (node : RenderNode) (m : nat) :
  exists w1 w2,
    register_all (repeat node m) w = Ret (tt, w1) /\
    registrations node (mPendingAnimatingRenderNodes (mRootNode w1))
    = registrations node (mPendingAnimatingRenderNodes (mRootNode w)) + m /\
    vector.size (mPendingAnimatingRenderNodes (mRootNode w1))
    = vector.size (mPendingAnimatingRenderNodes (mRootNode w)) + m /\
    RootRenderNode.doAttachAnimatingNodes w1 = Ret (tt, w2) /\
    exists during_drain,
      calls w2 = calls w1 ++ during_drain /\
      attachments node during_drain
      = registrations node (mPendingAnimatingRenderNodes (mRootNode w)) + m.
Proof.
  exists (registered (repeat node m) w), (drained (registered (repeat node m) w)).
  split; [apply register_all_run|].
  split; [simpl; now rewrite registrations_app, registrations_repeat|].
  split; [unfold vector.size; simpl; now rewrite length_app, repeat_length|].
  split; [apply doAttachAnimatingNodes_run|].
  eexists. split; [reflexivity|].
  rewrite attachments_of_registry. simpl.
  now rewrite registrations_app, registrations_repeat.
Qed.
End Registry.

(** ** Finished animations *)

Section Finished.
Context `{AnimationContextBase}.

(** C8.  [callOnFinished] puts one event, the pair it was given, behind
    the events of the batch, and does nothing else: no listener is
    called, nothing is posted, the rest of the bridge and the root stay
    as they are. *)
Theorem callOnFinished_only_records
        (a : BaseRenderNodeAnimator) (l : AnimationListener) (w : World) :
  exists w',
    AnimationContextBridge.callOnFinished a l w = Ret (tt, w') /\
    mOnFinishedEvents (bridge w')
    = mOnFinishedEvents (bridge w) ++ [{| animator := a; listener := l |}] /\
    calls w' = calls w /\
    queue w' = queue w /\
    super (bridge w') = super (bridge w) /\
    mRootNode w' = mRootNode w.
Proof.
  eexists. split; [reflexivity|]. simpl. repeat split.
Qed.

Lemma handle_batch (th : Thread) (events : list OnFinishedEvent)
      (message : Message) (w : World) :
  handleMessage th (InvokeAnimationListeners events) message w
  = Ret (InvokeAnimationListeners [], delivered events w).
Proof.
  simpl. unfold InvokeAnimationListeners.handleMessage.
  rewrite (bind_Ret _ _ _ (for_each_callOnFinished events w)).
  reflexivity.
Qed.

(** C2.  When the batch holds K >= 1 events as the advancement returns,
    [runRemainingAnimations] puts exactly one message on the queue, an
    [InvokeAnimationListeners] holding these K events in the order they
    were recorded; handling it calls [onAnimationFinished] once per
    event, first to last, on the event's listener with the event's
    animator, and calls nothing else. *)
Theorem finished_events_posted_once_and_delivered_in_order
        (info : TreeInfo) (w : World) :
  let batch := batch_after_advancement info w in
  1 <= List.length batch ->
  exists w',
    AnimationContextBridge.runRemainingAnimations info w = Ret (tt, w') /\
    queue w' = queue w ++ [(InvokeAnimationListeners batch, {| what := 0 |})] /\
    forall (th : Thread) (message : Message) (wo : World),
    exists h wo',
      handleMessage th (InvokeAnimationListeners batch) message wo = Ret (h, wo') /\
      calls wo' = calls wo ++ map delivery batch.
Proof.
  intros batch K.
  exists (flushed (advanced info w)).
  split; [apply runRemainingAnimations_run|].
  split.
  - unfold flushed. simpl. fold batch.
    destruct batch; [simpl in K; lia|reflexivity].
  - intros th message wo. eexists. eexists.
    split; [apply handle_batch|reflexivity].
Qed.

(** C3.  When the batch is empty as the advancement returns,
    [runRemainingAnimations] leaves the queue as it was: nothing is
    posted. *)
Theorem no_finished_event_no_post (info : TreeInfo) (w : World) :
  batch_after_advancement info w = [] ->
  exists w',
    AnimationContextBridge.runRemainingAnimations info w = Ret (tt, w') /\
    queue w' = queue w.
Proof.
  intros E.
  exists (flushed (advanced info w)).
  split; [apply runRemainingAnimations_run|].
  unfold flushed. simpl. rewrite E. reflexivity.
Qed.

(** C5.  A batch that is not empty goes into the posted message by a
    swap with the message's own empty vector: the message holds the
    events, the vector of the bridge holds none once
    [runRemainingAnimations] has returned, and the batch of the next
    frame is made of that frame's completions only. *)
Theorem flush_moves_the_batch_out (info : TreeInfo) (w : World) :
  let batch := batch_after_advancement info w in
  batch <> [] ->
  InvokeAnimationListeners.new batch = (InvokeAnimationListeners batch, []) /\
  exists w',
    AnimationContextBridge.runRemainingAnimations info w = Ret (tt, w') /\
    queue w' = queue w ++ [(InvokeAnimationListeners batch, {| what := 0 |})] /\
    mOnFinishedEvents (bridge w') = [] /\
    forall info',
      batch_after_advancement info' w'
      = map event_of (snd (base_animate info' (super (bridge w')))).
Proof.
  intros batch NE.
  split; [reflexivity|].
  exists (flushed (advanced info w)).
  split; [apply runRemainingAnimations_run|].
  assert (E : flushed (advanced info w)
              = {| mRootNode := mRootNode (advanced info w);
                   bridge := set_events [] (bridge (advanced info w));
                   queue := queue w ++ [(InvokeAnimationListeners batch, {| what := 0 |})];
                   calls := calls (advanced info w) |}).
  { unfold flushed. simpl. fold batch. destruct batch; [congruence|reflexivity]. }
  rewrite E. simpl. repeat split.
Qed.

(** C10.  Handling an [InvokeAnimationListeners] leaves it with an empty
    event list, so handling the same object again, on any thread and in
    any world, calls no listener and changes nothing. *)
Theorem second_execution_calls_no_listener
        (th : Thread) (events : list OnFinishedEvent) (message : Message) (w : World) :
  exists h w1,
    handleMessage th (InvokeAnimationListeners events) message w = Ret (h, w1) /\
    calls w1 = calls w ++ map delivery events /\
    forall (th' : Thread) (message' : Message) (w' : World),
      handleMessage th' h message' w' = Ret (h, w').
Proof.
  eexists. eexists. split; [apply handle_batch|].
  split; [reflexivity|].
  intros th' message' w'. rewrite handle_batch. same_world.
Qed.
End Finished.

Lemma finished_events_posted_once_and_delivered_in_order_witness :
  exists w',
    AnimationContextBridge.runRemainingAnimations 5%N (Example.world Example.busy)
    = Ret (tt, w') /\
    queue w' = [(InvokeAnimationListeners
                   [ {| animator := 21%N; listener := 31%N |};
                     {| animator := 22%N; listener := 32%N |} ], {| what := 0 |})] /\
    forall (th : Thread) (message : Message)
           (wo : @World (SpecAnimationContext Example.busy)),
    exists h wo',
      handleMessage th (InvokeAnimationListeners
                          [ {| animator := 21%N; listener := 31%N |};
                            {| animator := 22%N; listener := 32%N |} ]) message wo
      = Ret (h, wo') /\
      calls wo' = calls wo ++ [call_onAnimationFinished 31%N 21%N;
                               call_onAnimationFinished 32%N 22%N].
Proof.
  apply (@finished_events_posted_once_and_delivered_in_order
           (SpecAnimationContext Example.busy) 5%N (Example.world Example.busy)).
  vm_compute. lia.
Defined.

Lemma no_finished_event_no_post_witness :
  exists w',
    AnimationContextBridge.runRemainingAnimations 5%N (Example.world Example.idle)
    = Ret (tt, w') /\
    queue w' = [].
Proof.
  apply (@no_finished_event_no_post
           (SpecAnimationContext Example.idle) 5%N (Example.world Example.idle)).
  reflexivity.
Defined.

Lemma flush_moves_the_batch_out_witness :
  exists w',
    AnimationContextBridge.runRemainingAnimations 5%N (Example.world Example.busy)
    = Ret (tt, w') /\
    mOnFinishedEvents (bridge w') = [].
Proof.
  destruct (@flush_moves_the_batch_out
              (SpecAnimationContext Example.busy) 5%N (Example.world Example.busy))
    as [_ [w' [Erun [_ [Eempty _]]]]].
  - vm_compute. discriminate.
  - exists w'. split; [exact Erun|exact Eempty].
Defined.

(** ** Errors *)

Lemma c_str_with_NUL (s : string) :
  has_NUL s = true -> exists rest, s = (c_str s ++ String NUL rest)%string.
Proof.
  induction s as [|c s IH]; simpl; [discriminate|].
  destruct (Ascii.eqb c NUL) eqn:Ec; simpl.
  - intros _. apply Ascii.eqb_eq in Ec. subst c. now exists s.
  - intros Es. destruct (IH Es) as [rest E]. exists rest. now rewrite <- E.
Qed.

Section Errors.
Context `{AnimationContextBase}.

Lemma getenv_attached (th : Thread) (vm : JavaVM) (env : JNIEnv) (w : World) :
  JavaVM_GetEnv th vm = (JNI_OK, env) -> getenv th vm w = Ret (env, w).
Proof. intros E. unfold getenv. rewrite E. reflexivity. Qed.

(** C4, as the code has it.  [onError] puts exactly one message on the
    queue, a [RenderingException] holding the message text as given.
    Handling it on a thread attached to the VM, as the owner thread is,
    throws one [IllegalStateException] whose text is the message read as
    a C string: the whole message when it has no NUL char, the part
    before its first NUL otherwise. *)
Theorem onError_posts_one_exception
        (th : Thread) (env : JNIEnv) (message : string) (w : World) :
  JavaVM_GetEnv th (mVm (mRootNode w)) = (JNI_OK, env) ->
  let unit := RenderingException (mVm (mRootNode w)) message in
  exists w',
    RootRenderNode.onError message w = Ret (tt, w') /\
    queue w' = queue w ++ [(unit, {| what := 0 |})] /\
    calls w' = calls w /\
    (forall (m : Message) (wo : World),
     exists wo',
       handleMessage th unit m wo = Ret (unit, wo') /\
       calls wo' = calls wo
                     ++ [call_jniThrowException env "java/lang/IllegalStateException"
                                                (c_str message)]) /\
    (has_NUL message = false -> c_str message = message) /\
    (has_NUL message = true ->
     exists rest, message = (c_str message ++ String NUL rest)%string).
Proof.
  intros Eenv unit.
  eexists. split; [reflexivity|]. simpl.
  split; [reflexivity|]. split; [reflexivity|].
  split; [|split; [apply c_str_without_NUL|apply c_str_with_NUL]].
  intros m wo. eexists. split.
  - unfold unit. simpl.
    unfold RenderingException.handleMessage, RenderingException.throwException.
    unfold bind at 1. unfold bind at 1.
    rewrite (getenv_attached _ _ wo Eenv). reflexivity.
  - reflexivity.
Qed.
End Errors.

Lemma onError_posts_one_exception_witness :
  exists w',
    RootRenderNode.onError "Unable to create layer" (Example.world Example.idle)
    = Ret (tt, w') /\
    queue w' = [(RenderingException Example.vm "Unable to create layer", {| what := 0 |})] /\
    forall wo : @World (SpecAnimationContext Example.idle),
    exists wo',
      handleMessage Example.owner
                    (RenderingException Example.vm "Unable to create layer")
                    {| what := 0 |} wo
      = Ret (RenderingException Example.vm "Unable to create layer", wo') /\
      calls wo' = calls wo
                    ++ [call_jniThrowException Example.env "java/lang/IllegalStateException"
                                               "Unable to create layer"].
Proof.
  destruct (@onError_posts_one_exception
              (SpecAnimationContext Example.idle) Example.owner Example.env
              "Unable to create layer" (Example.world Example.idle) eq_refl)
    as [w' [Erun [Equeue [_ [Ehandle _]]]]].
  exists w'. split; [exact Erun|]. split; [exact Equeue|].
  intros wo. exact (Ehandle {| what := 0 |} wo).
Defined.

(** C4, as the spec has it, fails: the text [a NUL b] reaches the owner
    thread as [a]. *)
Lemma onError_text_is_cut_at_NUL :
  exists w1 w2,
    RootRenderNode.onError Example.text_with_NUL (Example.world Example.idle)
    = Ret (tt, w1) /\
    OwnerThread.pollOnce Example.owner w1 = Ret (tt, w2) /\
    calls w2 = [call_jniThrowException Example.env "java/lang/IllegalStateException" "a"] /\
    "a"%string <> Example.text_with_NUL.
Proof.
  eexists. eexists.
  split; [reflexivity|]. split; [reflexivity|]. split; [reflexivity|].
  discriminate.
Qed.

(** ** Construction of the root node *)

(** C9.  On a thread without a looper the constructor of
    [RootRenderNode] ends in [LOG_ALWAYS_FATAL], which aborts the process
    and returns no object; on a thread with a looper it returns the
    object, holding that looper, and the fatal branch is taken on no such
    thread. *)
Theorem RootRenderNode_needs_a_looper (th : Thread) (env : JNIEnv) :
  (Looper_getForThread th = None ->
   RootRenderNode.new th env
   = Fatal "Must create RootRenderNode on a thread with a looper!") /\
  (forall looper : Looper,
      Looper_getForThread th = Some looper ->
      RootRenderNode.new th env
      = Ret {| mLooper := looper;
               mVm := JNIEnv_GetJavaVM th env;
               mPendingAnimatingRenderNodes := [] |}) /\
  ((exists msg, RootRenderNode.new th env = Fatal msg)
   <-> Looper_getForThread th = None).
Proof.
  unfold RootRenderNode.new.
  destruct (Looper_getForThread th) as [looper|].
  - split; [discriminate|]. split.
    + intros l E. now inversion E.
    + split; [intros [msg E]; discriminate|discriminate].
  - split; [reflexivity|]. split; [discriminate|].
    split; [reflexivity|]. intros _. eexists. reflexivity.
Qed.

Lemma RootRenderNode_needs_a_looper_witness :
  RootRenderNode.new Example.worker Example.env
  = Fatal "Must create RootRenderNode on a thread with a looper!" /\
  RootRenderNode.new Example.owner Example.env
  = Ret {| mLooper := 7%N; mVm := Example.vm; mPendingAnimatingRenderNodes := [] |}.
Proof.
  split.
  - apply (proj1 (RootRenderNode_needs_a_looper Example.worker Example.env)).
    reflexivity.
  - apply (proj1 (proj2 (RootRenderNode_needs_a_looper Example.owner Example.env))).
    reflexivity.
Defined.

(** * The rest of the bridge: facts *)

Section TraversalFacts.
Context `{AnimationContextBase}.

Lemma RenderNode_prepareTree_run findings : forall w,
  RenderNode_prepareTree findings {| errorHandler := Some handler_RootRenderNode |} w
  = Ret (tt, traversed findings w).
Proof.
  unfold RenderNode_prepareTree.
  induction findings as [|[message|a l] findings IH]; intros w; simpl.
  - unfold ret. same_world.
    apply bridge_eq; simpl; auto using app_nil_r.
  - unfold bind at 1. unfold RootRenderNode.onError at 1.
    unfold bind at 1, gets at 1, Looper.sendMessage, modify at 1.
    rewrite IH. same_world.
    unfold RenderingException.new, error_message. now rewrite <- app_assoc.
  - unfold bind at 1, AnimationContextBridge.callOnFinished at 1, modify at 1.
    rewrite IH. same_world.
    apply bridge_eq; simpl; auto.
    unfold vector.push_back. now rewrite <- app_assoc.
Qed.

Lemma RootRenderNode_prepareTree_run findings info w :
  RootRenderNode_prepareTree findings info w
  = Ret ({| errorHandler := None |}, traversed findings w).
Proof.
  unfold RootRenderNode_prepareTree.
  rewrite (bind_Ret _ _ _ (RenderNode_prepareTree_run findings w)).
  reflexivity.
Qed.
End TraversalFacts.

(** ** Reading the logs *)

Section Logs.
Context `{AnimationContextBase}.

Lemma attach_log_app cs cs' : attach_log (cs ++ cs') = attach_log cs ++ attach_log cs'.
Proof. apply flat_map_app. Qed.

Lemma attach_log_attaches v : attach_log (map call_addAnimatingRenderNode v) = v.
Proof. induction v as [|n v IH]; simpl; [reflexivity|now rewrite IH]. Qed.

Lemma deliveries_app cs cs' : deliveries (cs ++ cs') = deliveries cs ++ deliveries cs'.
Proof. apply flat_map_app. Qed.

Lemma deliveries_attaches v : deliveries (map call_addAnimatingRenderNode v) = [].
Proof. induction v as [|n v IH]; simpl; [reflexivity|exact IH]. Qed.


Lemma thrown_app cs cs' : thrown (cs ++ cs') = thrown cs ++ thrown cs'.
Proof. apply flat_map_app. Qed.

Lemma thrown_attaches v : thrown (map call_addAnimatingRenderNode v) = [].
Proof. induction v as [|n v IH]; simpl; [reflexivity|exact IH]. Qed.


Lemma events_of_errors vm messages :
  flat_map events_of (map (error_message vm) messages) = [].
Proof. induction messages as [|m messages IH]; simpl; [reflexivity|exact IH]. Qed.

Lemma events_of_posting batch : flat_map events_of (posting batch) = batch.
Proof. destruct batch; simpl; [reflexivity|now rewrite app_nil_r]. Qed.

Lemma queued_errors_app q q' : queued_errors (q ++ q') = queued_errors q ++ queued_errors q'.
Proof. apply flat_map_app. Qed.

Lemma queued_errors_errors vm messages :
  queued_errors (map (error_message vm) messages) = messages.
Proof. induction messages as [|m messages IH]; simpl; [reflexivity|now rewrite IH]. Qed.

Lemma queued_errors_posting batch : queued_errors (posting batch) = [].
Proof. destruct batch; reflexivity. Qed.

Lemma well_posted_errors vm messages :
  Forall (well_posted vm) (map (error_message vm) messages).
Proof.
  induction messages as [|m messages IH]; simpl; constructor; auto.
  split; reflexivity.
Qed.

Lemma well_posted_posting vm batch : Forall (well_posted vm) (posting batch).
Proof.
  destruct batch as [|e batch]; simpl; constructor; auto.
  split; simpl; [reflexivity|discriminate].
Qed.

Lemma flushed_posting (w : World) :
  queue (flushed w) = queue w ++ posting (mOnFinishedEvents (bridge w)) /\
  mOnFinishedEvents (bridge (flushed w)) = [] /\
  super (bridge (flushed w)) = super (bridge w) /\
  mRootNode (flushed w) = mRootNode w /\
  calls (flushed w) = calls w.
Proof.
  unfold flushed.
  destruct (mOnFinishedEvents (bridge w)) as [|e events] eqn:E; simpl.
  - rewrite app_nil_r. auto.
  - auto.
Qed.
End Logs.

(** ** One call, then runs of calls *)

Section RunFacts.
Context `{AnimationContextBase}.

Lemma run_op_effect (op : Op) (w : World) :
  exists w' posted,
    run_op op w = Ret (tt, w') /\
    queue w' = queue w ++ posted /\
    Forall (well_posted (mVm (mRootNode w))) posted /\
    queued_errors posted = errors_reported_by op /\
    deliveries (calls w') = deliveries (calls w) /\
    thrown (calls w') = thrown (calls w) /\
    undelivered w' = undelivered w ++ recorded_by op w /\
    attach_log (calls w') ++ mPendingAnimatingRenderNodes (mRootNode w')
    = attach_log (calls w) ++ mPendingAnimatingRenderNodes (mRootNode w)
        ++ registered_by op /\
    mVm (mRootNode w') = mVm (mRootNode w) /\
    mLooper (mRootNode w') = mLooper (mRootNode w).
Proof.
  destruct op as [node| |findings info|a l|info|message]; simpl.
  - eexists. exists []. split; [reflexivity|]. simpl.
    unfold undelivered, vector.push_back. simpl.
    rewrite !app_nil_r. repeat split; auto.
  - eexists. exists []. split; [apply startFrame_run|]. simpl.
    unfold undelivered. simpl.
    rewrite !app_nil_r, !deliveries_app, !thrown_app, !attach_log_app.
    rewrite deliveries_attaches, thrown_attaches, attach_log_attaches. simpl.
    rewrite !app_nil_r. repeat split; auto.
  - eexists. exists (map (error_message (mVm (mRootNode w))) (errors_of findings)).
    split.
    { erewrite bind_Ret by apply RootRenderNode_prepareTree_run. reflexivity. }
    unfold undelivered. simpl.
    rewrite flat_map_app, events_of_errors, queued_errors_errors, !app_nil_r.
    repeat split; auto using well_posted_errors.
    now rewrite app_assoc.
  - eexists. exists []. split; [reflexivity|]. simpl.
    unfold undelivered, vector.push_back. simpl.
    rewrite !app_nil_r. repeat split; auto.
    now rewrite app_assoc.
  - exists (flushed (advanced info w)), (posting (batch_after_advancement info w)).
    split; [apply runRemainingAnimations_run|].
    destruct (flushed_posting (advanced info w)) as (Eq & Eb & _ & Er & Ec).
    unfold undelivered. rewrite Eq, Eb, Er, Ec. simpl.
    rewrite flat_map_app, events_of_posting, queued_errors_posting.
    rewrite deliveries_app, thrown_app, attach_log_app. simpl.
    rewrite !app_nil_r. unfold batch_after_advancement.
    repeat split; auto using well_posted_posting.
    now rewrite !app_assoc.
  - eexists. exists [error_message (mVm (mRootNode w)) message].
    split; [reflexivity|]. simpl.
    unfold undelivered. simpl.
    rewrite flat_map_app. simpl. rewrite !app_nil_r.
    repeat split; auto.
    constructor; [split; reflexivity|constructor].
Qed.

Lemma run_ops_effect (ops : list Op) : forall w : World,
  exists w' posted,
    run_ops ops w = Ret (tt, w') /\
    queue w' = queue w ++ posted /\
    Forall (well_posted (mVm (mRootNode w))) posted /\
    queued_errors posted = flat_map errors_reported_by ops /\
    deliveries (calls w') = deliveries (calls w) /\
    thrown (calls w') = thrown (calls w) /\
    undelivered w' = undelivered w ++ recorded_during ops w /\
    attach_log (calls w') ++ mPendingAnimatingRenderNodes (mRootNode w')
    = attach_log (calls w) ++ mPendingAnimatingRenderNodes (mRootNode w)
        ++ flat_map registered_by ops /\
    mVm (mRootNode w') = mVm (mRootNode w) /\
    mLooper (mRootNode w') = mLooper (mRootNode w).
Proof.
  unfold run_ops.
  induction ops as [|op ops IH]; intros w.
  - exists w, []. simpl. rewrite !app_nil_r. repeat split; auto.
  - destruct (run_op_effect op w)
      as (w1 & p1 & R1 & Q1 & W1 & E1 & D1 & T1 & U1 & A1 & V1 & L1).
    destruct (IH w1) as (w2 & p2 & R2 & Q2 & W2 & E2 & D2 & T2 & U2 & A2 & V2 & L2).
    exists w2, (p1 ++ p2). simpl.
    rewrite (bind_Ret _ _ _ R1), R1.
    split; [exact R2|].
    split; [now rewrite Q2, Q1, app_assoc|].
    split; [apply Forall_app; split; [exact W1|now rewrite <- V1]|].
    split; [now rewrite queued_errors_app, E1, E2|].
    split; [congruence|]. split; [congruence|].
    split; [now rewrite U2, U1, app_assoc|].
    split; [now rewrite A2, app_assoc, A1, <- !app_assoc|].
    split; congruence.
Qed.
End RunFacts.

(** * The rest of the bridge: properties *)

Section Frames.
Context `{AnimationContextBase}.

(** X1.  [prepareTree] makes the root the error handler for the time of
    the traversal only: whatever [info] held at the call, it holds NULL
    at the return, and every error the traversal reports in between is
    posted once, in the order reported, as a [RenderingException] for the
    root's VM.  The animations that end are recorded in the batch, in
    order; no listener is called, nothing is thrown and nothing is
    attached. *)
Theorem prepareTree_scopes_the_error_handler
        (findings : list Finding) (info : TreeInfoFields) (w : World) :
  exists w',
    RootRenderNode_prepareTree findings info w
    = Ret ({| errorHandler := None |}, w') /\
    queue w' = queue w ++ map (error_message (mVm (mRootNode w))) (errors_of findings) /\
    mOnFinishedEvents (bridge w')
    = mOnFinishedEvents (bridge w) ++ finished_of findings /\
    calls w' = calls w /\
    mRootNode w' = mRootNode w /\
    super (bridge w') = super (bridge w).
Proof.
  exists (traversed findings w).
  split; [apply RootRenderNode_prepareTree_run|].
  simpl. repeat split.
Qed.

(** X2.  A frame run as [startFrame], [prepareTree],
    [runRemainingAnimations] posts the errors of the traversal first and
    then, when any animation ended, one batch: it holds the events left
    in the bridge, those of the traversal and those of the advancement, in
    this order, so an error in the frame loses no event.  The frame ends
    with the registry and the batch empty. *)
Theorem frame_posts_errors_then_one_batch
        (findings : list Finding) (info0 : TreeInfoFields) (info : TreeInfo) (w : World) :
  let pending := mPendingAnimatingRenderNodes (mRootNode w) in
  let base := base_startFrame (attached pending (super (bridge w))) in
  let batch := mOnFinishedEvents (bridge w) ++ finished_of findings
                 ++ map event_of (snd (base_animate info base)) in
  exists w',
    run_ops [op_startFrame; op_prepareTree findings info0;
             op_runRemainingAnimations info] w = Ret (tt, w') /\
    queue w' = queue w ++ map (error_message (mVm (mRootNode w))) (errors_of findings)
                       ++ posting batch /\
    mOnFinishedEvents (bridge w') = [] /\
    mPendingAnimatingRenderNodes (mRootNode w') = [] /\
    super (bridge w') = fst (base_animate info base) /\
    calls w' = calls w ++ map call_addAnimatingRenderNode pending
                       ++ [call_AnimationContext_startFrame;
                           call_AnimationContext_runRemainingAnimations info].
Proof.
  intros pending base batch.
  unfold run_ops. simpl.
  rewrite (bind_Ret _ _ _ (startFrame_run w)).
  erewrite bind_Ret
    by (erewrite bind_Ret by apply RootRenderNode_prepareTree_run; reflexivity).
  erewrite bind_Ret by apply runRemainingAnimations_run.
  eexists. split; [reflexivity|].
  match goal with |- context [flushed ?w1] =>
    destruct (flushed_posting w1) as (Eq & Eb & Es & Er & Ec) end.
  rewrite Eq, Eb, Es, Er, Ec. simpl.
  unfold batch_after_advancement. simpl.
  fold pending. fold base.
  rewrite <- !app_assoc. simpl. repeat split.
Qed.

(** X3.  Two calls of [runRemainingAnimations] in a row post the batch
    of the first, then the batch of the second, and the second holds the
    completions of the second advancement only: no event of the first
    frame is posted again. *)
Theorem consecutive_frames_post_no_event_twice (info1 info2 : TreeInfo) (w : World) :
  let batch1 := batch_after_advancement info1 w in
  let base := fst (base_animate info1 (super (bridge w))) in
  let batch2 := map event_of (snd (base_animate info2 base)) in
  exists w',
    run_ops [op_runRemainingAnimations info1; op_runRemainingAnimations info2] w
    = Ret (tt, w') /\
    queue w' = queue w ++ posting batch1 ++ posting batch2 /\
    mOnFinishedEvents (bridge w') = [].
Proof.
  intros batch1 base batch2.
  unfold run_ops. simpl.
  rewrite (bind_Ret _ _ _ (runRemainingAnimations_run info1 w)).
  erewrite bind_Ret by apply runRemainingAnimations_run.
  eexists. split; [reflexivity|].
  destruct (flushed_posting (advanced info1 w)) as (Eq1 & Eb1 & Es1 & Er1 & Ec1).
  destruct (flushed_posting (advanced info2 (flushed (advanced info1 w))))
    as (Eq2 & Eb2 & _).
  rewrite Eq2, Eb2. simpl. rewrite Eq1.
  split; [|reflexivity].
  rewrite <- app_assoc. do 2 f_equal.
  unfold batch_after_advancement. rewrite Eb1, Es1. reflexivity.
Qed.
End Frames.

Section Invariants.
Context `{AnimationContextBase}.


(** X5.  Over any run of calls, the events recorded and not yet
    delivered, those in queued messages followed by those in the batch,
    grow by exactly the events the run records, in order: the flush moves
    events from the batch to the queue and neither drops nor repeats
    one. *)
Theorem finished_events_are_conserved (ops : list Op) (w : World) :
  exists w',
    run_ops ops w = Ret (tt, w') /\
    undelivered w' = undelivered w ++ recorded_during ops w.
Proof.
  destruct (run_ops_effect ops w) as (w' & posted & R & _ & _ & _ & _ & _ & U & _).
  exists w'. auto.
Qed.

(** X6.  Over any run of calls, the nodes attached to the animation
    context so far followed by the nodes pending grow by exactly the nodes
    the run registers, in order: a node registered while a frame is under
    way waits for the next [startFrame], and none is attached twice or
    forgotten. *)
Theorem registrations_are_conserved (ops : list Op) (w : World) :
  exists w',
    run_ops ops w = Ret (tt, w') /\
    attach_log (calls w') ++ mPendingAnimatingRenderNodes (mRootNode w')
    = attach_log (calls w) ++ mPendingAnimatingRenderNodes (mRootNode w)
        ++ flat_map registered_by ops.
Proof.
  destruct (run_ops_effect ops w)
    as (w' & posted & R & _ & _ & _ & _ & _ & _ & A & _).
  exists w'. auto.
Qed.

(** X7.  Every message a run of calls queues has [what = 0] and is either
    an [InvokeAnimationListeners] with at least one event or a
    [RenderingException] for the VM of the root; a queue of such messages
    stays one, and the root keeps its VM and its looper. *)
Theorem queue_stays_well_posted (ops : list Op) (w : World) :
  Forall (well_posted (mVm (mRootNode w))) (queue w) ->
  exists w',
    run_ops ops w = Ret (tt, w') /\
    Forall (well_posted (mVm (mRootNode w'))) (queue w') /\
    mVm (mRootNode w') = mVm (mRootNode w) /\
    mLooper (mRootNode w') = mLooper (mRootNode w).
Proof.
  intros W.
  destruct (run_ops_effect ops w)
    as (w' & posted & R & Q & P & _ & _ & _ & _ & _ & V & L).
  exists w'. split; [exact R|]. split; [|auto].
  rewrite Q, V. apply Forall_app. auto.
Qed.
End Invariants.

Lemma queue_stays_well_posted_witness :
  exists w',
    run_ops [op_onError "Unable to create layer"; op_callOnFinished 21%N 31%N;
             op_runRemainingAnimations 5%N]
            (Example.world Example.idle) = Ret (tt, w') /\
    Forall (well_posted (mVm (mRootNode w'))) (queue w') /\
    mVm (mRootNode w') = Example.vm /\
    mLooper (mRootNode w') = 7%N.
Proof.
  apply (@queue_stays_well_posted (SpecAnimationContext Example.idle)).
  simpl. constructor.
Defined.

(** ** The owner thread *)

Section Owner.
Context `{AnimationContextBase}.




End Owner.



Section EndToEnd.
Context `{AnimationContextBase}.



(** X11.  Handling a [RenderingException] on a thread for which
    [GetEnv] does not answer [JNI_OK] ends the process in [getenv]:
    nothing is thrown and no state is handed on. *)
Theorem exception_on_detached_thread_is_fatal
        (th : Thread) (vm : JavaVM) (text : string) (message : Message) (w : World) :
  fst (JavaVM_GetEnv th vm) <> JNI_OK ->
  handleMessage th (RenderingException vm text) message w
  = Fatal "Failed to get JNIEnv for JavaVM: %p".
Proof.
  intros E. simpl. unfold RenderingException.handleMessage.
  apply bind_Fatal. now apply throwException_detached.
Qed.
End EndToEnd.


Lemma exception_on_detached_thread_is_fatal_witness :
  handleMessage Example.worker (RenderingException Example.vm "lost") {| what := 0 |}
                (Example.world Example.idle)
  = Fatal "Failed to get JNIEnv for JavaVM: %p".
Proof.
  apply (@exception_on_detached_thread_is_fatal (SpecAnimationContext Example.idle)).
  simpl. discriminate.
Defined.

(** ** The JNI glue *)

(** X12.  [nSetAtlas] never hands an empty map to the proxy: for an
    array without elements it only logs a warning, and for any other it
    calls [setTextureAtlas] once, with the buffer of the Java object, a
    copy of all the elements of the array in order, and their number. *)
Theorem setAtlas_rejects_the_empty_map
        (graphicBufferForJavaObject : address -> address)
        (proxyPtr : Z) (graphicBuffer : address) (atlasMapArray : jlongArray) :
  android_view_ThreadedRenderer_setAtlas graphicBufferForJavaObject
                                         proxyPtr graphicBuffer atlasMapArray
  = match atlasMapArray with
    | [] => [call_ALOGW "Failed to initialize atlas, invalid map length: %d"]
    | _ :: _ =>
        [call_setTextureAtlas proxyPtr (graphicBufferForJavaObject graphicBuffer)
                              atlasMapArray (Z.of_nat (List.length atlasMapArray))]
    end.
Proof.
  unfold android_view_ThreadedRenderer_setAtlas, GetArrayLength, GetLongArrayRegion.
  destruct atlasMapArray as [|x rest]; [reflexivity|].
  destruct (Z.leb_spec (Z.of_nat (List.length (x :: rest))) 0) as [Hle|Hgt].
  - simpl List.length in Hle. lia.
  - rewrite Nat2Z.id. change (Z.to_nat 0) with 0%nat. cbn [skipn].
    now rewrite firstn_all.
Qed.

Lemma distinct_NoDup (names : list string) : distinct names = true -> NoDup names.
Proof.
  induction names as [|n rest IH]; simpl; intros E; constructor.
  - apply andb_prop in E as [E _]. apply negb_true_iff in E.
    intros In.
    assert (T : existsb (String.eqb n) rest = true)
      by (apply existsb_exists; exists n; split; [exact In|apply String.eqb_refl]).
    congruence.
  - apply andb_prop in E as [_ E]. auto.
Qed.

(** X13.  In [gMethods], with and without [USE_OPENGL_RENDERER]: every
    signature is a well-formed JNI signature whose parameter and result
    types are those of the function registered under it, no Java name
    is registered twice, no function is registered twice, and the count
    handed to [registerNativeMethods] is the number of entries, 29 with
    the renderer and 1 without. *)
Theorem gMethods_is_consistent (USE_OPENGL_RENDERER : bool) :
  Forall (fun m => consistent m = true) (gMethods USE_OPENGL_RENDERER) /\
  NoDup (map name (gMethods USE_OPENGL_RENDERER)) /\
  NoDup (map (fun m => c_name (fnPtr m)) (gMethods USE_OPENGL_RENDERER)) /\
  snd (register_android_view_ThreadedRenderer USE_OPENGL_RENDERER)
  = (if USE_OPENGL_RENDERER then 29 else 1)%Z /\
  List.length (gMethods USE_OPENGL_RENDERER) = (if USE_OPENGL_RENDERER then 29 else 1).
Proof.
  split; [|split; [|split; [|split]]].
  - apply Forall_forall. apply forallb_forall.
    destruct USE_OPENGL_RENDERER; vm_compute; reflexivity.
  - apply distinct_NoDup. destruct USE_OPENGL_RENDERER; vm_compute; reflexivity.
  - apply distinct_NoDup. destruct USE_OPENGL_RENDERER; vm_compute; reflexivity.
  - destruct USE_OPENGL_RENDERER; vm_compute; reflexivity.
  - destruct USE_OPENGL_RENDERER; reflexivity.
Qed.
